(** * A shallow embedding of the interaction controller of mcpgame (src/main.js)

    The second copy of the game code in [src/main.js] (from the
    configuration block at line 603 on) is the one embedded here:
    [sendQuery], [openTerminalUi], [closeTerminalUi], [handleKeyDown],
    [updatePlayerMovement], [requestNewImage], [checkForImages],
    [loadImageToDisplay], the completion of [fetchStatus],
    [updateInstructions], [handleMouseMove] and the placement loop of
    [createTrees].

    Conventions of the embedding:
    - JS strings are [string]; JS numbers of the geometry are rationals [Q]
      (the constants of the source are all decimal and exact in [Q]);
      millisecond timestamps ([Date.now()]) are [Z].
    - Asynchronous code ([await fetch], promise callbacks, texture loading)
      is run to completion with the outcome of the remote call passed as an
      explicit argument.
    - Every outgoing request and every texture operation is recorded as an
      [effect], in the order the code issues it. *)

From Stdlib Require Import String Ascii List ZArith NArith QArith Qabs Lqa Bool Lia.
Import ListNotations.
Open Scope nat_scope.
Open Scope string_scope.

(* ------------------------------------------------------------------ *)
(** ** Shared helpers: JS string and array operations *)

(** Characters removed by [String.prototype.trim] (restricted to 8-bit
    characters: tab, LF, VT, FF, CR, space and NBSP). *)
Definition js_is_space (c : ascii) : bool :=
  let n := nat_of_ascii c in
  Nat.eqb n 32 || (Nat.leb 9 n && Nat.leb n 13) || Nat.eqb n 160.

(** [!s.trim()] : the string is empty after trimming. *)
Fixpoint trim_is_empty (s : string) : bool :=
  match s with
  | EmptyString => true
  | String c r => js_is_space c && trim_is_empty r
  end.

(** [s.startsWith(p)] *)
Definition startsWith (s p : string) : bool := String.prefix p s.

(** [arr.slice(-n)] for [n > 0]: the last [n] elements. *)
Definition slice_last {A} (n : nat) (l : list A) : list A :=
  skipn (length l - n) l.

(** [arr.slice(0, -1)]: everything but the last element. *)
Definition slice_but_last {A} (l : list A) : list A := removelast l.

(** Decimal rendering of a number, as in a template literal. *)
Fixpoint N_digits (fuel : nat) (n : N) (acc : string) : string :=
  match fuel with
  | O => acc
  | S f =>
      let acc' := String (ascii_of_N (48 + N.modulo n 10)) acc in
      if (N.div n 10 =? 0)%N then acc' else N_digits f (N.div n 10) acc'
  end.
Definition N_to_string (n : N) : string := N_digits 32 n "".

(* ------------------------------------------------------------------ *)
(** ** Data model of the terminal session *)

(** [content] of a history entry: a plain string (user turns) or the
    Anthropic block list [[{ type: "text", text }]] (assistant turns). *)
Inductive content :=
| Plain (s : string)
| TextBlocks (texts : list string).

Record turn := mkTurn { role : string; body : content }.

(** A paragraph of [terminalMessages]: [addMessageToLog(sender, text)]
    renders it with [textContent = `${sender}: ${text}`]. *)
Record log_entry := mkEntry { sender : string; text : string }.

Definition textContent (e : log_entry) : string := sender e ++ ": " ++ text e.

(** Requests and texture operations issued by the code. *)
Record texture := mkTexture { tex_id : nat; tex_src : string }.

Inductive effect :=
| ReqStatus                                   (* GET  /api/status          *)
| ReqQuery (query : string) (history : list turn) (* POST /api/query     *)
| ReqLatestImage                              (* GET  /latest-image        *)
| ReqLegacyImage                              (* GET  /api/latest-image    *)
| LoadTexture (url : string)                  (* textureLoader.load(url)   *)
| DisposeTexture (t : texture).               (* texture.dispose()         *)

(** The module-level variables of the terminal. *)
Record session := mkSession {
  isTerminalOpen : bool;
  interactionType : string;            (* 'tv', 'computer' or '' *)
  messageHistory : list turn;
  terminalMessages : list log_entry;
  terminalInput : string;
  terminalStatus : string
}.

Definition addMessageToLog (snd txt : string) (s : session) : session :=
  {| isTerminalOpen := isTerminalOpen s; interactionType := interactionType s;
     messageHistory := messageHistory s;
     terminalMessages := (terminalMessages s ++ [mkEntry snd txt])%list;
     terminalInput := terminalInput s; terminalStatus := terminalStatus s |}.

Definition set_history (h : list turn) (s : session) : session :=
  {| isTerminalOpen := isTerminalOpen s; interactionType := interactionType s;
     messageHistory := h; terminalMessages := terminalMessages s;
     terminalInput := terminalInput s; terminalStatus := terminalStatus s |}.

Definition set_input (v : string) (s : session) : session :=
  {| isTerminalOpen := isTerminalOpen s; interactionType := interactionType s;
     messageHistory := messageHistory s; terminalMessages := terminalMessages s;
     terminalInput := v; terminalStatus := terminalStatus s |}.

Definition set_messages (m : list log_entry) (s : session) : session :=
  {| isTerminalOpen := isTerminalOpen s; interactionType := interactionType s;
     messageHistory := messageHistory s; terminalMessages := m;
     terminalInput := terminalInput s; terminalStatus := terminalStatus s |}.

(* ------------------------------------------------------------------ *)
(** ** [sendQuery] *)

(** Outcome of [await fetch(`${MCP_BACKEND_URL}/api/query`, ...)] and of
    reading its body. *)
Inductive error_body :=
| ErrJson (error : option string)   (* body parsed; its [error] field *)
| ErrUnparsable.                    (* [response.json()] rejected *)

Inductive query_outcome :=
| NetworkError (message : string)             (* fetch itself rejects *)
| HttpError (status : N) (b : error_body)     (* [!response.ok] *)
| HttpOkBadJson (message : string)            (* ok, but [response.json()] rejects *)
| HttpOk (response : string).                 (* ok, [result.response] *)

(** [errorData.error || `HTTP error! status: ${response.status}`] *)
Definition http_error_message (status : N) (b : error_body) : string :=
  match b with
  | ErrUnparsable => "Failed to parse error response."
  | ErrJson (Some e) => if String.eqb e "" then "HTTP error! status: " ++ N_to_string status else e
  | ErrJson None => "HTTP error! status: " ++ N_to_string status
  end.

(** Removal of the "Processing..." paragraph: [terminalMessages.lastElementChild]
    is removed when its text starts with ["AI: Processing..."]. *)
Definition remove_thinking (m : list log_entry) : list log_entry :=
  match rev m with
  | last :: rest =>
      if startsWith (textContent last) "AI: Processing..." then rev rest else m
  | [] => m
  end.

Definition user_turn (q : string) : turn := mkTurn "user" (Plain q).
Definition assistant_turn (r : string) : turn := mkTurn "assistant" (TextBlocks [r]).

(** The history after the user turn is pushed and the history cap applied. *)
Definition push_user (q : string) (h : list turn) : list turn :=
  let h1 := (h ++ [user_turn q])%list in
  if Nat.ltb 10 (length h1) then slice_last 10 h1 else h1.

(** [sendQuery(queryText)], run to completion with the given outcome. *)
Definition sendQuery (queryText : string) (o : query_outcome) (s : session)
  : session * list effect :=
  if trim_is_empty queryText then (s, []) else
  let s1 := set_input "" (addMessageToLog "You" queryText s) in
  let s2 := set_history (push_user queryText (messageHistory s1)) s1 in
  let s3 := addMessageToLog "AI" "Processing..." s2 in
  let req := [ReqQuery queryText (slice_but_last (messageHistory s3))] in
  match o with
  | NetworkError msg =>
      (* the rejected [await fetch] jumps to the catch block *)
      (addMessageToLog "Error" msg s3, req)
  | HttpError status b =>
      let s4 := set_messages (remove_thinking (terminalMessages s3)) s3 in
      (addMessageToLog "Error" (http_error_message status b) s4, req)
  | HttpOkBadJson msg =>
      let s4 := set_messages (remove_thinking (terminalMessages s3)) s3 in
      (addMessageToLog "Error" msg s4, req)
  | HttpOk r =>
      let s4 := set_messages (remove_thinking (terminalMessages s3)) s3 in
      let s5 := addMessageToLog "AI" r s4 in
      (set_history (messageHistory s5 ++ [assistant_turn r])%list s5, req)
  end.

(** A sequence of submissions. *)
Fixpoint run_queries (qs : list (string * query_outcome)) (s : session)
  : session * list effect :=
  match qs with
  | [] => (s, [])
  | (q, o) :: rest =>
      let '(s1, e1) := sendQuery q o s in
      let '(s2, e2) := run_queries rest s1 in
      (s2, (e1 ++ e2)%list)
  end.

Definition is_failure (o : query_outcome) : bool :=
  match o with NetworkError _ | HttpError _ _ => true | _ => false end.

Definition count_sender (who : string) (m : list log_entry) : nat :=
  length (filter (fun e => String.eqb (sender e) who) m).

Definition sample_session : session :=
  mkSession true "computer" [] [] "" "MCP TERMINAL".

(** [sendQuery] split at its first [await]. The part before the request
    runs synchronously when Enter is pressed; the part after it runs when
    the response (or the network error) arrives, possibly after other
    submissions. The code keeps no pending flag, so submissions may overlap. *)
Definition sendQuery_begin (queryText : string) (s : session) : session * list effect :=
  if trim_is_empty queryText then (s, []) else
  let s1 := set_input "" (addMessageToLog "You" queryText s) in
  let s2 := set_history (push_user queryText (messageHistory s1)) s1 in
  let s3 := addMessageToLog "AI" "Processing..." s2 in
  (s3, [ReqQuery queryText (slice_but_last (messageHistory s3))]).

(** The continuation after [await fetch(...)]: it reads only the response
    and the current log and history, never the query text. *)
Definition sendQuery_end (o : query_outcome) (s3 : session) : session :=
  match o with
  | NetworkError msg => addMessageToLog "Error" msg s3
  | HttpError status b =>
      let s4 := set_messages (remove_thinking (terminalMessages s3)) s3 in
      addMessageToLog "Error" (http_error_message status b) s4
  | HttpOkBadJson msg =>
      let s4 := set_messages (remove_thinking (terminalMessages s3)) s3 in
      addMessageToLog "Error" msg s4
  | HttpOk r =>
      let s4 := set_messages (remove_thinking (terminalMessages s3)) s3 in
      let s5 := addMessageToLog "AI" r s4 in
      set_history (messageHistory s5 ++ [assistant_turn r])%list s5
  end.

(** Events of the terminal client: a submission ([sendQuery] called with
    the input text) or the arrival of the response to one of the requests
    in flight (the continuation is the same whichever request it answers). *)
Inductive client_event :=
| Submit (queryText : string)
| Respond (o : query_outcome).

(** Runs the events from a session with [pending] requests in flight;
    returns the session, the requests still in flight and the effects. A
    response with no request in flight cannot arrive and is skipped. *)
Fixpoint run_client (evs : list client_event) (s : session) (pending : nat)
  : session * nat * list effect :=
  match evs with
  | [] => (s, pending, [])
  | Submit q :: rest =>
      if trim_is_empty q then run_client rest s pending else
      let '(s1, e1) := sendQuery_begin q s in
      let '(s2, p2, e2) := run_client rest s1 (S pending) in
      (s2, p2, (e1 ++ e2)%list)
  | Respond o :: rest =>
      match pending with
      | O => run_client rest s O
      | S p => run_client rest (sendQuery_end o s) p
      end
  end.

(** The largest number of requests in flight at once during the events. *)
Fixpoint peak_pending (evs : list client_event) (pending : nat) : nat :=
  match evs with
  | [] => pending
  | Submit q :: rest =>
      if trim_is_empty q then peak_pending rest pending
      else Nat.max pending (peak_pending rest (S pending))
  | Respond _ :: rest =>
      match pending with
      | O => peak_pending rest O
      | S p => Nat.max pending (peak_pending rest p)
      end
  end.

(** Whether the server answered (any status), as opposed to the request
    itself failing. *)
Definition server_responded (o : query_outcome) : bool :=
  match o with NetworkError _ => false | _ => true end.

(** The line the continuation appends last for an outcome. *)
Definition outcome_entry (o : query_outcome) : log_entry :=
  match o with
  | NetworkError msg => mkEntry "Error" msg
  | HttpError status b => mkEntry "Error" (http_error_message status b)
  | HttpOkBadJson msg => mkEntry "Error" msg
  | HttpOk r => mkEntry "AI" r
  end.

(* ------------------------------------------------------------------ *)
(** ** Data model of the avatar and of the image display *)

Open Scope Q_scope.

(** [a < b] on numbers. *)
Definition Qltb (a b : Q) : bool := negb (Qle_bool b a).

(** [Math.min], [Math.max], [Math.sign] *)
Definition js_min (a b : Q) : Q := if Qle_bool a b then a else b.
Definition js_max (a b : Q) : Q := if Qle_bool b a then a else b.
Definition js_sign (a : Q) : Q := if Qltb 0 a then 1 else if Qltb a 0 then -1 else 0.

Record vec3 := mkVec3 { vx : Q; vy : Q; vz : Q }.

Definition PLAYER_HEIGHT : Q := 17 # 10.
Definition PLAYER_MOVE_SPEED : Q := 5.
Definition WORLD_SIZE : Q := 100.
Definition INTERACTION_DISTANCE : Q := 7 # 2.

(** Positions of the fixtures (children of the house group, placed at the
    origin): [computer.position] and [tv.position]. *)
Definition computer_position : vec3 := mkVec3 (-7) (13 # 10) 7.
Definition tv_position : vec3 := mkVec3 0 2 4.

(** A tree of [createTrees]: only its ground position is read. *)
Record tree := mkTree { tree_x : Q; tree_z : Q }.

(** [THREE.Vector2(dx, dz).length() < 1.2], i.e. [dx*dx + dz*dz < 1.44]
    (both sides are non-negative, so comparing the squares is exact). *)
Definition tree_hit (x z : Q) (t : tree) : bool :=
  Qltb ((x - tree_x t) * (x - tree_x t) + (z - tree_z t) * (z - tree_z t)) (144 # 100).

(** [a.distanceTo(b) < INTERACTION_DISTANCE], compared on squares. *)
Definition within_interaction (a b : vec3) : bool :=
  Qltb ((vx a - vx b) * (vx a - vx b) + (vy a - vy b) * (vy a - vy b)
        + (vz a - vz b) * (vz a - vz b))
       (INTERACTION_DISTANCE * INTERACTION_DISTANCE).

Record avatar := mkAvatar {
  position : vec3;               (* player.position *)
  playerNearTV : bool;
  playerNearComputer : bool;
  playerNearDoor : bool
}.

(** The placement rule of [createTrees]: coordinates drawn from
    [(Math.random() * WORLD_SIZE - WORLD_SIZE/2) * 0.8] and kept only when
    [isAwayFromPath && isAwayFromHouse]. *)
Definition tree_placement_ok (t : tree) : bool :=
  let x := tree_x t in let z := tree_z t in
  Qle_bool (-40) x && Qltb x 40 && Qle_bool (-40) z && Qltb z 40 &&
  (Qltb 3 (Qabs x) || Qltb z (-10) || Qltb 25 z) &&
  (Qltb 625 (x * x + z * z) || Qltb 15 z).

(** The loop [for (const tree of trees)]: on the first tree hit the
    position is restored to [previousPosition] and the loop breaks. *)
Fixpoint tree_loop (trees : list tree) (cur prev : vec3) : vec3 :=
  match trees with
  | [] => cur
  | t :: ts => if tree_hit (vx cur) (vz cur) t then prev else tree_loop ts cur prev
  end.

(** Body of [if (moveDirection.lengthSq() > 0) { ... }] in
    [updatePlayerMovement], for the displacement [(dx, dz)] =
    [moveDirection * moveSpeed] (the direction is horizontal: the player's
    rotation only turns about the vertical axis). *)
Definition move_step (trees : list tree) (dx dz : Q) (a : avatar) : avatar :=
  let prev := position a in
  let halfWorldSize := WORLD_SIZE / 2 in
  let x1 := js_max (- halfWorldSize) (js_min halfWorldSize (vx prev + dx)) in
  let z1 := js_max (- halfWorldSize) (js_min halfWorldSize (vz prev + dz)) in
  let houseSize : Q := 20 in
  let wallThickness : Q := 1 in
  let innerSize := houseSize - wallThickness * 2 in
  let halfInnerSize := innerSize / 2 in
  let frontDoorWidth : Q := 3 in
  let isInHouseX := Qle_bool (- halfInnerSize) x1 && Qle_bool x1 halfInnerSize in
  let isInHouseZ := Qle_bool (- halfInnerSize) z1 && Qle_bool z1 halfInnerSize in
  let isInHouse := isInHouseX && isInHouseZ in
  let '(p, nearDoor) :=
    if isInHouse then
      let x2 := if Qltb (halfInnerSize - (3 # 10)) (Qabs x1)
                then js_sign x1 * (halfInnerSize - (3 # 10)) else x1 in
      let z2 := if Qltb (halfInnerSize - (3 # 10)) z1 then halfInnerSize - (3 # 10) else z1 in
      let z3 := if Qltb z2 (- halfInnerSize + (3 # 10)) &&
                   (Qltb x2 (- frontDoorWidth / 2) || Qltb (frontDoorWidth / 2) x2)
                then - halfInnerSize + (3 # 10) else z2 in
      (mkVec3 x2 (vy prev) z3, playerNearDoor a)
    else
      let nearHouseX := Qle_bool (- houseSize / 2 - (3 # 10)) x1 &&
                        Qle_bool x1 (houseSize / 2 + (3 # 10)) in
      let nearHouseZ := Qle_bool (- houseSize / 2 - (3 # 10)) z1 &&
                        Qle_bool z1 (houseSize / 2 + (3 # 10)) in
      let '(x2, z2, nd) :=
        if nearHouseX && nearHouseZ then
          if Qltb z1 (- houseSize / 2 + (3 # 10)) && Qltb (- houseSize / 2 - (3 # 10)) z1 then
            if Qle_bool (- frontDoorWidth / 2) x1 && Qle_bool x1 (frontDoorWidth / 2)
            then (x1, z1, true)
            else (x1, - houseSize / 2 - (3 # 10), playerNearDoor a)
          else if Qltb (houseSize / 2 - (3 # 10)) z1 && Qltb z1 (houseSize / 2 + (3 # 10))
          then (x1, houseSize / 2 + (3 # 10), playerNearDoor a)
          else if Qltb x1 (- houseSize / 2 + (3 # 10)) && Qltb (- houseSize / 2 - (3 # 10)) x1
          then (- houseSize / 2 - (3 # 10), z1, playerNearDoor a)
          else if Qltb (houseSize / 2 - (3 # 10)) x1 && Qltb x1 (houseSize / 2 + (3 # 10))
          then (houseSize / 2 + (3 # 10), z1, playerNearDoor a)
          else (x1, z1, playerNearDoor a)
        else (x1, z1, false) in
      (tree_loop trees (mkVec3 x2 (vy prev) z2) prev, nd) in
  let y := if isInHouse then PLAYER_HEIGHT + (5 # 100) else PLAYER_HEIGHT in
  mkAvatar (mkVec3 (vx p) y (vz p)) (playerNearTV a) (playerNearComputer a) nearDoor.

(** The proximity flags recomputed at the end of [updatePlayerMovement]. *)
Definition update_proximity (a : avatar) : avatar :=
  mkAvatar (position a)
    (within_interaction (position a) tv_position)
    (within_interaction (position a) computer_position)
    (playerNearDoor a).

(** [updatePlayerMovement(deltaTime)]: [intent] is [None] when no movement
    key yields a direction ([moveDirection.lengthSq() > 0] fails), else the
    displacement [moveDirection * PLAYER_MOVE_SPEED * deltaTime]. *)
Definition updatePlayerMovement (trees : list tree) (isOpen locked : bool)
    (intent : option (Q * Q)) (a : avatar) : avatar :=
  if isOpen || negb locked then a else
  let a1 := match intent with
            | Some (dx, dz) => move_step trees dx dz a
            | None => a
            end in
  update_proximity a1.

(** Inside the house footprint used for collisions and for the y level. *)
Definition in_house (p : vec3) : bool :=
  Qle_bool (-9) (vx p) && Qle_bool (vx p) 9 && Qle_bool (-9) (vz p) && Qle_bool (vz p) 9.

Close Scope Q_scope.

(* ------------------------------------------------------------------ *)
(** ** Game state, terminal open/close, key handling, image poller *)

(** [imageDisplay.material]: a texture map or a solid colour. *)
Inductive material :=
| MapMaterial (t : texture)
| ColorMaterial (rgb : N).

Record game := mkGame {
  ses : session;
  av : avatar;
  mouseLocked : bool;
  lastCheckedImageTime : Z;
  currentImageTexture : option texture;
  imageDisplayMaterial : material
}.

Definition IMAGE_SERVER_URL : string := "http://localhost:3002".

Definition with_ses (s : session) (g : game) : game :=
  mkGame s (av g) (mouseLocked g) (lastCheckedImageTime g)
    (currentImageTexture g) (imageDisplayMaterial g).

Definition with_av (a : avatar) (g : game) : game :=
  mkGame (ses g) a (mouseLocked g) (lastCheckedImageTime g)
    (currentImageTexture g) (imageDisplayMaterial g).

Definition with_last (t : Z) (g : game) : game :=
  mkGame (ses g) (av g) (mouseLocked g) t
    (currentImageTexture g) (imageDisplayMaterial g).

Definition with_image (t : option texture) (m : material) (g : game) : game :=
  mkGame (ses g) (av g) (mouseLocked g) (lastCheckedImageTime g) t m.

Definition set_open (b : bool) (s : session) : session :=
  mkSession b (interactionType s) (messageHistory s) (terminalMessages s)
    (terminalInput s) (terminalStatus s).

Definition set_type (t : string) (s : session) : session :=
  mkSession (isTerminalOpen s) t (messageHistory s) (terminalMessages s)
    (terminalInput s) (terminalStatus s).

Definition set_status (t : string) (s : session) : session :=
  mkSession (isTerminalOpen s) (interactionType s) (messageHistory s)
    (terminalMessages s) (terminalInput s) t.

(** [addMessageToLog] guarded by [if (isTerminalOpen)]. *)
Definition log_if_open (snd txt : string) (g : game) : game :=
  if isTerminalOpen (ses g) then with_ses (addMessageToLog snd txt (ses g)) g else g.

(** JS truthiness of an optional string field. *)
Definition truthy (o : option string) : option string :=
  match o with
  | Some u => if String.eqb u "" then None else Some u
  | None => None
  end.

(** [checkForImages()] at time [now = Date.now()]: the guarded part that
    runs synchronously and issues the request. *)
Definition checkForImages (now : Z) (g : game) : game * list effect :=
  if (now - lastCheckedImageTime g <? 10000)%Z then (g, [])
  else (with_last now g, [ReqLatestImage]).

(** Address resolution of [loadImageToDisplay]. *)
Definition resolve_image_url (imageUrl : string) : string :=
  if negb (String.eqb imageUrl "") && negb (startsWith imageUrl "http") then
    if startsWith imageUrl "/" then IMAGE_SERVER_URL ++ imageUrl
    else IMAGE_SERVER_URL ++ "/" ++ imageUrl
  else imageUrl.

(** Outcome of [textureLoader.load]: the texture it created, or an error. *)
Inductive load_outcome :=
| Loaded (id : nat)
| LoadError.

(** [loadImageToDisplay(imageUrl)] run to completion. *)
Definition loadImageToDisplay (imageUrl : string) (lo : load_outcome) (g : game)
  : game * list effect :=
  let disposed := match currentImageTexture g with
                  | Some t => [DisposeTexture t]
                  | None => []
                  end in
  let fullImageUrl := resolve_image_url imageUrl in
  let g' := match lo with
            | Loaded id =>
                let t := mkTexture id fullImageUrl in
                with_image (Some t) (MapMaterial t) g
            | LoadError =>
                with_image (currentImageTexture g) (ColorMaterial 3355443 (* 0x333333 *)) g
            end in
  (g', (disposed ++ [LoadTexture fullImageUrl])%list).

(** Responses of the gallery endpoints. *)
Inductive latest_response :=
| LatestOk (imageUrl latestImage : option string)  (* ok, parsed JSON body *)
| LatestFailed.                                   (* rejected, !ok or bad JSON *)

Inductive legacy_response :=
| LegacyOk (latestImage : option string)
| LegacyFailed.

(** The promise chain of [checkForImages] after the request was issued. *)
Definition onLatestImage (r : latest_response) (leg : legacy_response)
    (lo : load_outcome) (g : game) : game * list effect :=
  match r with
  | LatestOk iu li =>
      match truthy iu with
      | Some u => loadImageToDisplay u lo g
      | None =>
          match truthy li with
          | Some u => loadImageToDisplay u lo g
          | None => (log_if_open "System" "No images available in the gallery." g, [])
          end
      end
  | LatestFailed =>
      let '(g', e) :=
        match leg with
        | LegacyOk li =>
            match truthy li with
            | Some u => loadImageToDisplay u lo g
            | None => (g, [])
            end
        | LegacyFailed =>
            (log_if_open "System" "Unable to connect to the image gallery." g, [])
        end in
      (g', ReqLegacyImage :: e)
  end.

(** [requestNewImage()] *)
Definition requestNewImage (now : Z) (g : game) : game * list effect :=
  let g1 := with_last 0 g in
  let '(g2, e) := checkForImages now g1 in
  (log_if_open "System" "Checking for available images in the gallery..." g2, e).

(** [openTerminalUi()]; [fetchStatus()] sets the connecting line and issues
    its request (its completion only rewrites [terminalStatus]). *)
Definition openTerminalUi (g : game) : game * list effect :=
  if isTerminalOpen (ses g) then (g, []) else
  let s := ses g in
  let s' := mkSession true (interactionType s) [] [] "" "Connecting to MCP Backend..." in
  (mkGame s' (av g) false (lastCheckedImageTime g)
     (currentImageTexture g) (imageDisplayMaterial g), [ReqStatus]).

(** [closeTerminalUi()] *)
Definition closeTerminalUi (now : Z) (g : game) : game * list effect :=
  if negb (isTerminalOpen (ses g)) then (g, []) else
  let g1 := with_ses (set_open false (ses g)) g in
  let '(g2, e) := if String.eqb (interactionType (ses g1)) "tv"
                  then requestNewImage now g1 else (g1, []) in
  (with_ses (set_type "" (ses g2)) g2, e).

(** The door action of [handleKeyDown]. *)
Definition door_teleport (a : avatar) : avatar :=
  let p := position a in
  let houseSize : Q := 20%Q in
  let innerSize := (houseSize - 2)%Q in
  let isInHouseX := Qle_bool (- innerSize / 2)%Q (vx p) && Qle_bool (vx p) (innerSize / 2)%Q in
  let isInHouseZ := Qle_bool (- innerSize / 2)%Q (vz p) && Qle_bool (vz p) (innerSize / 2)%Q in
  let z := if isInHouseX && isInHouseZ then (- houseSize / 2 - 2)%Q
           else (- innerSize / 2 + 1)%Q in
  mkAvatar (mkVec3 (vx p) (vy p) z) (playerNearTV a) (playerNearComputer a) (playerNearDoor a).

(** [handleKeyDown] for the Enter key. [inputFocused] is
    [document.activeElement === terminalInput]; [o] is the outcome of the
    query request when one is sent. *)
Definition handleEnter (inputFocused : bool) (o : query_outcome) (g : game)
  : game * list effect :=
  if isTerminalOpen (ses g) && inputFocused then
    let '(s', e) := sendQuery (terminalInput (ses g)) o (ses g) in (with_ses s' g, e)
  else if negb (isTerminalOpen (ses g)) then
    if playerNearComputer (av g) then
      openTerminalUi (with_ses (set_type "computer" (ses g)) g)
    else if playerNearTV (av g) then
      let '(g', e) := openTerminalUi (with_ses (set_type "tv" (ses g)) g) in
      (with_ses (set_status "TV REMOTE CONTROL" (ses g')) g', e)
    else if playerNearDoor (av g) then
      (with_av (door_teleport (av g)) g, [])
    else (g, [])
  else (g, []).

(** [handleKeyDown] for the Escape key: closes the terminal when open. *)
Definition handleEscape (now : Z) (g : game) : game * list effect :=
  if isTerminalOpen (ses g) then closeTerminalUi now g else (g, []).

(** Which fixture an Enter press (terminal closed) acted on. *)
Inductive fixture := Computer | Television | Door.

Definition fixture_in_range (a : avatar) (f : fixture) : bool :=
  match f with
  | Computer => playerNearComputer a
  | Television => playerNearTV a
  | Door => playerNearDoor a
  end.

(** The fixed priority order of the spec, Computer > Television > Door. *)
Definition priority_order : list fixture := [Computer; Television; Door].

(** The first fixture of the priority order that is in range. *)
Definition top_eligible (a : avatar) : option fixture :=
  find (fixture_in_range a) priority_order.

(** The image identifier a poll resolves: the primary response's
    [imageUrl], else its [latestImage], else (after a failed primary
    request) the legacy response's [latestImage]. *)
Definition resolved_image (r : latest_response) (leg : legacy_response) : option string :=
  match r with
  | LatestOk iu li =>
      match truthy iu with
      | Some u => Some u
      | None => truthy li
      end
  | LatestFailed =>
      match leg with
      | LegacyOk li => truthy li
      | LegacyFailed => None
      end
  end.

(* ------------------------------------------------------------------ *)
(** ** Status line, instructions, mouse look, tree placement *)

(** Outcome of [fetch(`${MCP_BACKEND_URL}/api/status`)] and of reading it. *)
Inductive status_outcome :=
| StatusNetworkError                          (* fetch rejects *)
| StatusHttpError (status : N) (b : error_body) (* [!response.ok]: throws *)
| StatusBadJson                               (* ok, [response.json()] rejects *)
| StatusOk.                                   (* ok, parsed *)

(** The part of [fetchStatus()] after its [await]: the try block and the
    catch block both write the same line. *)
Definition onStatusResponse (o : status_outcome) (s : session) : session :=
  match o with
  | StatusOk => set_status "MCP TERMINAL" s
  | StatusNetworkError | StatusHttpError _ _ | StatusBadJson =>
      set_status "MCP TERMINAL" s
  end.

(** [updateInstructions()]: the text of the [instructions] element. *)
Definition updateInstructions (isOpen locked : bool) (a : avatar) : string :=
  if isOpen then "Type your command and press Enter to interact"
  else if negb locked then
    "Click on the game to enable controls | WASD to move | ESC to release mouse"
  else if playerNearComputer a then "Press Enter to access MCP Terminal"
  else if playerNearTV a then "Press Enter to use TV Remote"
  else if playerNearDoor a then "Press Enter to enter/exit the house"
  else "WASD to move | Explore the environment".

Open Scope Q_scope.

Definition PLAYER_TURN_SPEED : Q := 3 # 100.

(** [player.rotation.y] and [camera.rotation.x]. *)
Record look := mkLook { yaw : Q; pitch : Q }.

(** [handleMouseMove(event)]; [pointerLocked] is
    [document.pointerLockElement === canvas] and [maxVerticalLook] the
    value of [Math.PI / 2 - 0.1]. Returns the new angles and [mouseLocked]. *)
Definition handleMouseMove (pointerLocked : bool) (maxVerticalLook : Q)
    (movementX movementY : Q) (l : look) (locked : bool) : look * bool :=
  if pointerLocked then
    let newVerticalAngle := pitch l + movementY * PLAYER_TURN_SPEED in
    (mkLook (yaw l - movementX * PLAYER_TURN_SPEED)
       (js_max (- maxVerticalLook) (js_min maxVerticalLook newVerticalAngle)), true)
  else (l, locked).

(** One draw of [createTrees]:
    [x = (Math.random() * WORLD_SIZE - WORLD_SIZE/2) * 0.8], same for [z]. *)
Definition tree_candidate (r1 r2 : Q) : tree :=
  mkTree ((r1 * WORLD_SIZE - WORLD_SIZE / 2) * (8 # 10))
         ((r2 * WORLD_SIZE - WORLD_SIZE / 2) * (8 # 10)).

(** [isAwayFromPath && isAwayFromHouse]; [Math.sqrt(x*x + z*z) > 25] is
    compared on squares. *)
Definition isValidPosition (t : tree) : bool :=
  let x := tree_x t in let z := tree_z t in
  let isAwayFromPath := Qltb 3 (Qabs x) || Qltb z (-10) || Qltb 25 z in
  let isAwayFromHouse := Qltb 625 (x * x + z * z) || Qltb 15 z in
  isAwayFromPath && isAwayFromHouse.

(** The [while (!isValidPosition)] loop over a supply of random draws;
    [None] when the supply runs out (the source would keep drawing). *)
Fixpoint place_tree (rs : list (Q * Q)) : option (tree * list (Q * Q)) :=
  match rs with
  | [] => None
  | (r1, r2) :: rest =>
      let t := tree_candidate r1 r2 in
      if isValidPosition t then Some (t, rest) else place_tree rest
  end.

(** [for (let i = 0; i < numTrees; i++)] with [createTree(x, z)] pushing
    each tree into [trees]. *)
Fixpoint createTrees_from (n : nat) (rs : list (Q * Q)) : list tree :=
  match n with
  | O => []
  | S k =>
      match place_tree rs with
      | Some (t, rest) => t :: createTrees_from k rest
      | None => []
      end
  end.

Close Scope Q_scope.

(** A sequence of [checkForImages()] calls at the given times. *)
Fixpoint run_checks (ts : list Z) (g : game) : game * list effect :=
  match ts with
  | [] => (g, [])
  | t :: rest =>
      let '(g1, e1) := checkForImages t g in
      let '(g2, e2) := run_checks rest g1 in
      (g2, (e1 ++ e2)%list)
  end.


(* ------------------------------------------------------------------ *)
(** ** Concrete scenarios *)

Open Scope Q_scope.

(** The game right after start-up: terminal closed, avatar at the spawn
    point, nothing displayed yet. *)
Definition start_game : game :=
  mkGame (mkSession false "" [] [] "" "")
    (mkAvatar (mkVec3 0 PLAYER_HEIGHT 20) false false false)
    true 0 None (ColorMaterial 3355443).

Definition six_exchanges : list (string * query_outcome) :=
  map (fun q => (q, HttpOk "ok")) ["q1"; "q2"; "q3"; "q4"; "q5"; "q6"].

Definition all_near_game : game :=
  with_av (mkAvatar (mkVec3 0 PLAYER_HEIGHT 5) true true true) start_game.

Definition tv_open_game : game :=
  with_ses (mkSession true "tv" [] [] "" "TV REMOTE CONTROL") start_game.

Definition shown_a : texture := mkTexture 1 "http://localhost:3002/images/a.png".

Definition showing_a_game : game :=
  with_image (Some shown_a) (MapMaterial shown_a) start_game.

Definition far_tree : tree := mkTree 0 (-38).

(** The avatar right after the door action taken from inside the house:
    outside, but still at the indoor eye level. *)
Definition teleported : avatar :=
  door_teleport (mkAvatar (mkVec3 0 (PLAYER_HEIGHT + (5 # 100)) (-5)) false false true).

Definition spawn_avatar : avatar := mkAvatar (mkVec3 0 PLAYER_HEIGHT 20) false false false.

(** A session holding 10 turns (the most [push_user] keeps). *)
Definition ten_turn_session : session :=
  mkSession true "computer" (repeat (user_turn "q") 10) [] "" "MCP TERMINAL".

Close Scope Q_scope.

(* ================================================================== *)
(** * Properties *)

(* ------------------------------------------------------------------ *)
(** ** The conversational client *)

Example sendQuery_ex1 :
  fst (sendQuery "hello" (NetworkError "Failed to fetch") sample_session) =
  mkSession true "computer" [user_turn "hello"]
    [mkEntry "You" "hello"; mkEntry "AI" "Processing..."; mkEntry "Error" "Failed to fetch"]
    "" "MCP TERMINAL".
Proof. reflexivity. Qed.

Example sendQuery_ex2 :
  fst (sendQuery "hello" (HttpError 500 (ErrJson None)) sample_session) =
  mkSession true "computer" [user_turn "hello"]
    [mkEntry "You" "hello"; mkEntry "Error" "HTTP error! status: 500"]
    "" "MCP TERMINAL".
Proof. reflexivity. Qed.

Lemma remove_thinking_placeholder (m : list log_entry) :
  remove_thinking (m ++ [mkEntry "AI" "Processing..."])%list = m.
Proof.
  unfold remove_thinking. rewrite rev_unit. simpl. apply rev_involutive.
Qed.

Lemma push_user_but_last (q : string) (h : list turn) :
  slice_but_last (push_user q h) =
  if Nat.ltb (length h) 10 then h else slice_last 9 h.
Proof.
  unfold push_user, slice_but_last, slice_last.
  rewrite length_app; simpl.
  destruct (Nat.ltb (length h) 10) eqn:E.
  - apply Nat.ltb_lt in E.
    replace (Nat.ltb 10 (length h + 1)) with false
      by (symmetry; apply Nat.ltb_ge; lia).
    apply removelast_last.
  - apply Nat.ltb_ge in E.
    replace (Nat.ltb 10 (length h + 1)) with true
      by (symmetry; apply Nat.ltb_lt; lia).
    rewrite skipn_app.
    replace (length h + 1 - 10 - length h) with 0 by lia.
    replace (length h + 1 - 10) with (length h - 9) by lia.
    apply removelast_last.
Qed.

(** Claim C1 (amended). For every non-blank text, when the query request
    fails (network error or non-2xx status), [sendQuery] appends to the
    displayed log exactly one user ("You") entry and exactly one
    error-labelled ("Error") entry; the persisted history gains the user
    turn (under the cap of 10) and no assistant turn; one request is issued. *)
Theorem sendQuery_failure_effect (q : string) (o : query_outcome) (s : session) :
  trim_is_empty q = false -> is_failure o = true ->
  (exists added,
      terminalMessages (fst (sendQuery q o s)) = (terminalMessages s ++ added)%list /\
      count_sender "You" added = 1 /\ count_sender "Error" added = 1) /\
  messageHistory (fst (sendQuery q o s)) = push_user q (messageHistory s) /\
  length (snd (sendQuery q o s)) = 1.
Proof.
  intros Hq Hf. unfold sendQuery. rewrite Hq.
  destruct o as [msg | status b | msg | r]; simpl in Hf; try discriminate.
  - split; [| split; reflexivity].
    exists [mkEntry "You" q; mkEntry "AI" "Processing..."; mkEntry "Error" msg].
    simpl. rewrite <- !app_assoc. repeat split; reflexivity.
  - split; [| split; reflexivity].
    exists [mkEntry "You" q; mkEntry "Error" (http_error_message status b)].
    simpl. rewrite <- app_assoc. simpl.
    replace (terminalMessages s ++ mkEntry "You" q :: [mkEntry "AI" "Processing..."])%list
      with ((terminalMessages s ++ [mkEntry "You" q]) ++ [mkEntry "AI" "Processing..."])%list
      by (rewrite <- app_assoc; reflexivity).
    rewrite remove_thinking_placeholder, <- app_assoc. repeat split; reflexivity.
Qed.

Lemma sendQuery_failure_effect_witness :
  messageHistory (fst (sendQuery "hello" (HttpError 500 ErrUnparsable) sample_session)) =
  push_user "hello" [].
Proof.
  apply (sendQuery_failure_effect "hello" (HttpError 500 ErrUnparsable) sample_session);
    reflexivity.
Defined.

(** Counterexample to claim C1 as stated: a failed [submit("hello")] on an
    empty history leaves the user turn in the persisted history. *)
Lemma sendQuery_failure_keeps_user_turn :
  messageHistory sample_session = [] /\
  messageHistory (fst (sendQuery "hello" (NetworkError "Failed to fetch") sample_session))
    = [user_turn "hello"].
Proof. split; reflexivity. Qed.

(** Claim C2 (amended). For every non-blank text, [sendQuery] issues exactly
    one request; its history field is the persisted history as it was
    before the submission (its most recent 9 turns when it already held 10
    or more), without the new user turn and without the placeholder. *)
Theorem sendQuery_request_history (q : string) (o : query_outcome) (s : session) :
  trim_is_empty q = false ->
  snd (sendQuery q o s) =
  [ReqQuery q (if Nat.ltb (length (messageHistory s)) 10
               then messageHistory s else slice_last 9 (messageHistory s))].
Proof.
  intros Hq. unfold sendQuery. rewrite Hq.
  destruct o; cbn [snd];
    unfold addMessageToLog, set_history, set_input; cbn [messageHistory];
    rewrite push_user_but_last; reflexivity.
Qed.

Lemma sendQuery_request_history_witness :
  snd (sendQuery "hello" (HttpOk "hi") sample_session) = [ReqQuery "hello" []].
Proof.
  apply (sendQuery_request_history "hello" (HttpOk "hi") sample_session). reflexivity.
Defined.

(** Counterexample to claim C2 as stated: from an empty history the request
    of [submit("hello")] carries an empty history, not the user turn. *)
Lemma sendQuery_request_omits_user_turn :
  snd (sendQuery "hello" (HttpOk "hi") sample_session) = [ReqQuery "hello" []] /\
  [] <> [user_turn "hello"].
Proof. split; [reflexivity | discriminate]. Qed.

(* ------------------------------------------------------------------ *)
(** ** History cap *)

(** Claim C3 (code defect). From a freshly opened session, six successful
    exchanges leave 11 turns in the persisted history, one more than the
    cap of 10 ("Keep last 10 messages"): the cap is applied after the
    user turn is pushed but not after the assistant turn. *)
Theorem history_exceeds_cap_after_six_exchanges :
  let g := fst (openTerminalUi (with_ses (set_type "computer" (ses start_game)) start_game)) in
  messageHistory (ses g) = [] /\
  length (messageHistory (fst (run_queries six_exchanges (ses g)))) = 11.
Proof. split; reflexivity. Qed.

(* ------------------------------------------------------------------ *)
(** ** Fixture priority *)

(** Claim C4. With the terminal closed, Enter acts on the first fixture of
    the priority order Computer > Television > Door among those whose
    in-range flag is set, whatever the other flags (hence whatever the
    distances or the order in which the fixtures came into range). *)
Theorem enter_acts_on_top_priority (focused : bool) (o : query_outcome) (g : game) :
  isTerminalOpen (ses g) = false ->
  handleEnter focused o g =
  match top_eligible (av g) with
  | Some Computer => openTerminalUi (with_ses (set_type "computer" (ses g)) g)
  | Some Television =>
      let '(g', e) := openTerminalUi (with_ses (set_type "tv" (ses g)) g) in
      (with_ses (set_status "TV REMOTE CONTROL" (ses g')) g', e)
  | Some Door => (with_av (door_teleport (av g)) g, [])
  | None => (g, [])
  end.
Proof.
  intros Hc. unfold handleEnter, top_eligible. rewrite Hc. simpl.
  destruct (playerNearComputer (av g)); [reflexivity |].
  destruct (playerNearTV (av g)); [reflexivity |].
  destruct (playerNearDoor (av g)); reflexivity.
Qed.

Lemma enter_acts_on_top_priority_witness :
  isTerminalOpen (ses all_near_game) = false /\
  top_eligible (av all_near_game) = Some Computer /\
  handleEnter false (HttpOk "") all_near_game =
  openTerminalUi (with_ses (set_type "computer" (ses all_near_game)) all_near_game).
Proof.
  split; [reflexivity | split; [reflexivity |]].
  rewrite (enter_acts_on_top_priority false (HttpOk "") all_near_game); reflexivity.
Defined.

(* ------------------------------------------------------------------ *)
(** ** Terminal open/close and the image poller *)

(** Claim C7. Closing an open session of kind 'tv' issues exactly one image
    request, from a check whose timestamp was forced to the epoch (so it
    passes whatever the last check time); closing an open 'computer'
    session issues none; in both cases the kind is reset to ''.
    [now] is [Date.now()], milliseconds since the epoch. *)
Theorem closeTerminalUi_poll (now : Z) (g : game) :
  (10000 <= now)%Z -> isTerminalOpen (ses g) = true ->
  (interactionType (ses g) = "tv" ->
     snd (closeTerminalUi now g) = [ReqLatestImage] /\
     lastCheckedImageTime (fst (closeTerminalUi now g)) = now) /\
  (interactionType (ses g) = "computer" -> snd (closeTerminalUi now g) = []) /\
  interactionType (ses (fst (closeTerminalUi now g))) = "" /\
  isTerminalOpen (ses (fst (closeTerminalUi now g))) = false.
Proof.
  intros Hnow Hopen.
  destruct g as [[op ty hist msgs inp st] a ml last tex mat]; simpl in Hopen; subst op.
  unfold closeTerminalUi; simpl.
  destruct (String.eqb ty "tv") eqn:Etv.
  - apply String.eqb_eq in Etv. subst ty.
    unfold requestNewImage, checkForImages; simpl.
    replace ((now - 0 <? 10000)%Z) with false by (symmetry; apply Z.ltb_ge; lia).
    simpl. split; [intros _; split; reflexivity |].
    split; [intros Hc; discriminate |].
    split; reflexivity.
  - split; [intros Htv; rewrite Htv in Etv; discriminate |].
    split; [intros _; reflexivity |].
    split; reflexivity.
Qed.

Lemma closeTerminalUi_poll_witness :
  snd (closeTerminalUi 1760000000000 tv_open_game) = [ReqLatestImage].
Proof.
  apply (closeTerminalUi_poll 1760000000000 tv_open_game); [lia | reflexivity | reflexivity].
Defined.

(** Claim C8. A check is a no-op when less than 10000 ms passed since the
    last one; two checks less than 10000 ms apart issue at most one
    request; once the timestamp is set to the epoch (as [requestNewImage]
    does), the next check issues the request whatever the elapsed time. *)
Theorem checkForImages_throttle (g : game) (now t1 t2 : Z) :
  ((now - lastCheckedImageTime g < 10000)%Z -> checkForImages now g = (g, [])) /\
  ((t2 - t1 < 10000)%Z ->
     length (snd (checkForImages t1 g) ++ snd (checkForImages t2 (fst (checkForImages t1 g))))%list
     <= 1) /\
  ((10000 <= now)%Z ->
     lastCheckedImageTime (with_last 0 g) = 0%Z /\
     snd (checkForImages now (with_last 0 g)) = [ReqLatestImage] /\
     snd (requestNewImage now g) = [ReqLatestImage]).
Proof.
  split; [| split].
  - intros H. unfold checkForImages.
    replace ((now - lastCheckedImageTime g <? 10000)%Z) with true
      by (symmetry; apply Z.ltb_lt; lia). reflexivity.
  - intros H. unfold checkForImages.
    destruct ((t1 - lastCheckedImageTime g <? 10000)%Z) eqn:E1; simpl.
    + destruct ((t2 - lastCheckedImageTime g <? 10000)%Z); simpl; lia.
    + replace ((t2 - t1 <? 10000)%Z) with true by (symmetry; apply Z.ltb_lt; lia).
      simpl. lia.
  - intros H. unfold requestNewImage, checkForImages. simpl.
    replace ((now - 0 <? 10000)%Z) with false by (symmetry; apply Z.ltb_ge; lia).
    repeat split; reflexivity.
Qed.

Lemma checkForImages_throttle_witness :
  checkForImages 5000 start_game = (start_game, []) /\
  (length (snd (checkForImages 20000 start_game) ++
           snd (checkForImages 25000 (fst (checkForImages 20000 start_game))))%list <= 1)%nat /\
  snd (requestNewImage 1760000000000 start_game) = [ReqLatestImage].
Proof.
  split; [| split].
  - apply (checkForImages_throttle start_game 5000 0 0). simpl. lia.
  - apply (checkForImages_throttle start_game 0 20000 25000). lia.
  - apply (checkForImages_throttle start_game 1760000000000 0 0). lia.
Defined.

(** Claim C10. [openTerminalUi] on an open session and [closeTerminalUi] on
    a closed one change nothing and issue no request (no status request,
    no image poll). *)
Theorem open_close_guarded (now : Z) (g : game) :
  (isTerminalOpen (ses g) = true -> openTerminalUi g = (g, [])) /\
  (isTerminalOpen (ses g) = false -> closeTerminalUi now g = (g, [])).
Proof.
  split; intros H.
  - unfold openTerminalUi. rewrite H. reflexivity.
  - unfold closeTerminalUi. rewrite H. reflexivity.
Qed.

Lemma open_close_guarded_witness :
  openTerminalUi tv_open_game = (tv_open_game, []) /\
  closeTerminalUi 1760000000000 start_game = (start_game, []).
Proof.
  split.
  - apply (open_close_guarded 0 tv_open_game). reflexivity.
  - apply (open_close_guarded 1760000000000 start_game). reflexivity.
Defined.

(* ------------------------------------------------------------------ *)
(** ** Loading a polled image *)

Lemma onLatestImage_resolved (r : latest_response) (leg : legacy_response)
    (lo : load_outcome) (g : game) (u : string) :
  resolved_image r leg = Some u ->
  exists pre, onLatestImage r leg lo g =
    (fst (loadImageToDisplay u lo g), (pre ++ snd (loadImageToDisplay u lo g))%list).
Proof.
  intros H. destruct r as [iu li |]; simpl in H; unfold onLatestImage.
  - exists [].
    destruct (truthy iu) as [u' |].
    + injection H as ->. destruct (loadImageToDisplay u lo g); reflexivity.
    + rewrite H. destruct (loadImageToDisplay u lo g); reflexivity.
  - exists [ReqLegacyImage].
    destruct leg as [li |]; [| discriminate].
    rewrite H. destruct (loadImageToDisplay u lo g); reflexivity.
Qed.

(** Claim C9 (amended). Whenever a poll resolves an image identifier [u]
    (equal to the displayed one or not), the code disposes the current
    texture if there is one and then starts loading [u] (resolved against
    the gallery address); the dispose happens whatever the load outcome.
    On a successful load the new texture is stored and displayed; on a
    failed load the display gets the neutral 0x333333 material. *)
Theorem poll_loads_resolved_image (r : latest_response) (leg : legacy_response)
    (lo : load_outcome) (g : game) (u : string) :
  resolved_image r leg = Some u ->
  (exists pre, snd (onLatestImage r leg lo g) =
     (pre ++ match currentImageTexture g with
             | Some t => [DisposeTexture t]
             | None => []
             end ++ [LoadTexture (resolve_image_url u)])%list) /\
  imageDisplayMaterial (fst (onLatestImage r leg lo g)) =
    (match lo with
    | Loaded id => MapMaterial (mkTexture id (resolve_image_url u))
    | LoadError => ColorMaterial 3355443
    end) /\
  currentImageTexture (fst (onLatestImage r leg lo g)) =
    (match lo with
    | Loaded id => Some (mkTexture id (resolve_image_url u))
    | LoadError => currentImageTexture g
    end).
Proof.
  intros H. destruct (onLatestImage_resolved r leg lo g u H) as [pre Hpre].
  rewrite Hpre. simpl.
  split; [exists pre; reflexivity |].
  destruct lo; split; reflexivity.
Qed.

Lemma poll_loads_resolved_image_witness :
  resolved_image (LatestOk (Some "/images/a.png") None) LegacyFailed = Some "/images/a.png" /\
  imageDisplayMaterial
    (fst (onLatestImage (LatestOk (Some "/images/a.png") None) LegacyFailed LoadError
            showing_a_game)) = ColorMaterial 3355443.
Proof.
  split; [reflexivity |].
  apply (poll_loads_resolved_image (LatestOk (Some "/images/a.png") None) LegacyFailed
           LoadError showing_a_game "/images/a.png").
  reflexivity.
Defined.

(** Counterexample to claim C9 as stated: with image [a] displayed, a poll
    resolving the same identifier still disposes the displayed texture and
    loads [a] again, and a failed load also disposes it. *)
Lemma poll_reloads_displayed_image :
  tex_src shown_a = resolve_image_url "/images/a.png" /\
  snd (onLatestImage (LatestOk (Some "/images/a.png") None) LegacyFailed (Loaded 2)
         showing_a_game)
    = [DisposeTexture shown_a; LoadTexture "http://localhost:3002/images/a.png"] /\
  snd (onLatestImage (LatestOk (Some "/images/a.png") None) LegacyFailed LoadError
         showing_a_game)
    = [DisposeTexture shown_a; LoadTexture "http://localhost:3002/images/a.png"].
Proof. repeat split; reflexivity. Qed.

(* ------------------------------------------------------------------ *)
(** ** Locomotion *)

Open Scope Q_scope.

Example move_step_forward :
  position (move_step [] 0 (-1) (mkAvatar (mkVec3 0 PLAYER_HEIGHT 20) false false false))
  = mkVec3 0 PLAYER_HEIGHT 19.
Proof. reflexivity. Qed.

Example move_step_into_tree :
  position (move_step [mkTree 0 (-38)] 0 (-26)
              (mkAvatar (mkVec3 0 (PLAYER_HEIGHT + (5 # 100)) (-12)) false false false))
  = mkVec3 0 PLAYER_HEIGHT (-12).
Proof. reflexivity. Qed.

Lemma Qle_bool_false (a b : Q) : Qle_bool a b = false -> b < a.
Proof.
  intros H. apply Qnot_le_lt. intros Hle. apply Qle_bool_iff in Hle. congruence.
Qed.

Lemma Qltb_true (a b : Q) : Qltb a b = true -> a < b.
Proof.
  unfold Qltb. destruct (Qle_bool b a) eqn:E; simpl; [discriminate |].
  intros _. apply Qle_bool_false. exact E.
Qed.

Lemma Qltb_false (a b : Q) : Qltb a b = false -> b <= a.
Proof.
  unfold Qltb. destruct (Qle_bool b a) eqn:E; simpl; [| discriminate].
  intros _. apply Qle_bool_iff. exact E.
Qed.

Lemma Qinv_2 : / 2 = 1 # 2.
Proof. reflexivity. Qed.

(** Turns the boolean comparisons in the context into inequalities. *)
Ltac qbool :=
  repeat match goal with
  | H : (_ && _)%bool = true |- _ => apply andb_true_iff in H; destruct H
  | H : (_ || _)%bool = false |- _ => apply orb_false_iff in H; destruct H
  | H : (_ && _)%bool = false |- _ => apply andb_false_iff in H; destruct H
  | H : (_ || _)%bool = true |- _ => apply orb_true_iff in H; destruct H
  | H : Qle_bool _ _ = true |- _ => apply Qle_bool_iff in H
  | H : Qle_bool _ _ = false |- _ => apply Qle_bool_false in H
  | H : Qltb _ _ = true |- _ => apply Qltb_true in H
  | H : Qltb _ _ = false |- _ => apply Qltb_false in H
  end.

(** Closes a linear goal over the constants of the source. *)
Ltac qlin :=
  unfold WORLD_SIZE, PLAYER_HEIGHT, Qdiv in *; rewrite ?Qinv_2 in *; lra.

Lemma sq_nonneg (a : Q) : 0 <= a * a.
Proof.
  destruct (Qlt_le_dec a 0) as [H | H].
  - setoid_replace (a * a) with ((- a) * (- a)) by ring.
    apply Qmult_le_0_compat; lra.
  - apply Qmult_le_0_compat; lra.
Qed.

Lemma sq_small (a : Q) : a * a < 144 # 100 -> -12 # 10 < a < 12 # 10.
Proof. intros H. split; nra. Qed.

(** A point within a tree's collision radius is far from the house: the
    placement rule keeps every tree away from the house footprint. *)
Lemma tree_hit_far_from_house (t : tree) (x z : Q) :
  tree_placement_ok t = true -> tree_hit x z t = true ->
  -412 # 10 < x < 412 # 10 /\ -412 # 10 < z < 412 # 10 /\
  (x < -103 # 10 \/ 103 # 10 < x \/ z < -103 # 10 \/ 103 # 10 < z).
Proof.
  destruct t as [tx tz]. unfold tree_placement_ok, tree_hit. simpl.
  intros Hp Hh. apply Qltb_true in Hh.
  pose proof (sq_nonneg (x - tx)). pose proof (sq_nonneg (z - tz)).
  assert (Ha : -12 # 10 < x - tx < 12 # 10) by (apply sq_small; lra).
  assert (Hb : -12 # 10 < z - tz < 12 # 10) by (apply sq_small; lra).
  qbool.
  all: split; [lra | split; [lra |]].
  all: first
    [ right; right; right; lra
    | destruct (Qlt_le_dec 17 tx); [right; left; lra |];
      destruct (Qlt_le_dec tx (-17)); [left; lra |];
      destruct (Qlt_le_dec 17 tz); [right; right; right; lra |];
      destruct (Qlt_le_dec tz (-17)); [right; right; left; lra |];
      exfalso;
      assert (0 <= (17 - tx) * (17 + tx)) by (apply Qmult_le_0_compat; lra);
      assert (0 <= (17 - tz) * (17 + tz)) by (apply Qmult_le_0_compat; lra);
      nra ].
Qed.

Lemma tree_loop_cases (trees : list tree) (cur prev : vec3) :
  (existsb (tree_hit (vx cur) (vz cur)) trees = true /\ tree_loop trees cur prev = prev) \/
  (existsb (tree_hit (vx cur) (vz cur)) trees = false /\ tree_loop trees cur prev = cur).
Proof.
  induction trees as [| t ts IH]; simpl; [right; split; reflexivity |].
  destruct (tree_hit (vx cur) (vz cur) t); simpl; [left; split; reflexivity | exact IH].
Qed.

(** Splits the goal along the first [if] it contains. *)
Ltac split_if :=
  match goal with
  | |- context [if ?c then _ else _] => let E := fresh "E" in destruct c eqn:E
  end.

Lemma clamp_bounds (v : Q) :
  -50 <= js_max (- (WORLD_SIZE / 2)) (js_min (WORLD_SIZE / 2) v) <= 50.
Proof.
  unfold js_max, js_min.
  destruct (Qle_bool (WORLD_SIZE / 2) v) eqn:E1; split_if; qbool; qlin.
Qed.

Lemma clamp_id (v : Q) :
  -50 < v < 50 -> js_max (- (WORLD_SIZE / 2)) (js_min (WORLD_SIZE / 2) v) = v.
Proof.
  intros H. unfold js_min.
  destruct (Qle_bool (WORLD_SIZE / 2) v) eqn:E1; qbool; [exfalso; qlin |].
  unfold js_max.
  destruct (Qle_bool v (- (WORLD_SIZE / 2))) eqn:E2; qbool; [exfalso; qlin | reflexivity].
Qed.

Lemma js_sign_cases (v : Q) : js_sign v = 1 \/ js_sign v = -1 \/ js_sign v = 0.
Proof.
  unfold js_sign. destruct (Qltb 0 v); [left; reflexivity |].
  destruct (Qltb v 0); [right; left; reflexivity | right; right; reflexivity].
Qed.

(** One locomotion step ends at the pre-move horizontal position, or
    inside the house footprint, or at a point inside the world bounds that
    was checked against every tree. *)
Lemma move_step_cases (trees : list tree) (dx dz : Q) (a : avatar) :
  let p := position (move_step trees dx dz a) in
  (vx p = vx (position a) /\ vz p = vz (position a)) \/
  (-9 <= vx p <= 9 /\ -9 <= vz p <= 9) \/
  (-50 <= vx p <= 50 /\ -50 <= vz p <= 50 /\
   existsb (tree_hit (vx p) (vz p)) trees = false).
Proof.
  unfold move_step. cbv zeta.
  pose proof (clamp_bounds (vx (position a) + dx)) as Hx.
  pose proof (clamp_bounds (vz (position a) + dz)) as Hz.
  generalize dependent (js_max (- (WORLD_SIZE / 2)) (js_min (WORLD_SIZE / 2) (vx (position a) + dx))).
  intros x1 Hx.
  generalize dependent (js_max (- (WORLD_SIZE / 2)) (js_min (WORLD_SIZE / 2) (vz (position a) + dz))).
  intros z1 Hz.
  repeat (cbn [andb orb]; split_if).
  all: cbn [position vx vy vz].
  all: try (match goal with
            | |- context [tree_loop ?ts ?c ?p] =>
                let Hh := fresh "Hh" in let Heq := fresh "Heq" in
                destruct (tree_loop_cases ts c p) as [[Hh Heq] | [Hh Heq]];
                rewrite Heq; cbn [vx vz] in Hh |- *
            end).
  all: qbool.
  all: try (left; split; reflexivity).
  all: try (right; right; split; [qlin | split; [qlin | assumption]]).
  all: right; left.
  all: try (destruct (js_sign_cases x1) as [Hs | [Hs | Hs]]; rewrite Hs).
  all: split; qlin.
Qed.

(** Claim C5 (amended). From a pre-move position outside the house, when
    the displaced position lies within the collision radius of some tree
    (trees placed by the rule of [createTrees]), the step rejects the whole
    move: the avatar gets back exactly its pre-move x and z, with no sliding
    along an axis; its height is set to the outdoor eye level
    [PLAYER_HEIGHT], so the result is the pre-move position whenever the
    avatar stood at that level. *)
Theorem tree_hit_rejects_move (trees : list tree) (dx dz : Q) (a : avatar) :
  forallb tree_placement_ok trees = true ->
  in_house (position a) = false ->
  existsb (tree_hit (vx (position a) + dx) (vz (position a) + dz)) trees = true ->
  position (updatePlayerMovement trees false true (Some (dx, dz)) a) =
  mkVec3 (vx (position a)) PLAYER_HEIGHT (vz (position a)).
Proof.
  intros Hplaced _ Hhit.
  destruct (proj1 (existsb_exists _ _) Hhit) as [t [Hin Ht]].
  pose proof (proj1 (forallb_forall _ _) Hplaced t Hin) as Hpt.
  destruct (tree_hit_far_from_house t _ _ Hpt Ht) as [Hbx [Hbz Hfar]].
  unfold updatePlayerMovement. cbn [orb negb].
  unfold update_proximity. cbn [position].
  unfold move_step. cbv zeta.
  rewrite (clamp_id (vx (position a) + dx)) by (unfold Qdiv in *; lra).
  rewrite (clamp_id (vz (position a) + dz)) by (unfold Qdiv in *; lra).
  repeat (cbn [andb orb]; split_if).
  all: cbn [position vx vy vz].
  all: try (match goal with
            | |- context [tree_loop ?ts ?c ?p] =>
                let Hh := fresh "Hh" in let Heq := fresh "Heq" in
                destruct (tree_loop_cases ts c p) as [[Hh Heq] | [Hh Heq]];
                rewrite Heq; cbn [vx vz] in Hh |- *
            end).
  all: try congruence.
  all: qbool.
  all: destruct Hfar as [? | [? | [? | ?]]].
  all: first [reflexivity | exfalso; qlin].
Qed.

Lemma tree_hit_rejects_move_witness :
  position (updatePlayerMovement [far_tree] false true (Some (0, -26)) teleported) =
  mkVec3 (vx (position teleported)) PLAYER_HEIGHT (vz (position teleported)).
Proof.
  apply (tree_hit_rejects_move [far_tree] 0 (-26) teleported); reflexivity.
Defined.

(** Counterexample to claim C5 as stated: after the door action from
    inside, the avatar stands outside at the indoor level 1.75; a move into
    a tree restores x and z but leaves it at 1.7, not at its pre-move
    position. *)
Lemma tree_hit_resets_height :
  vx (position teleported) == 0 /\ vz (position teleported) == -12 /\
  vy (position teleported) == PLAYER_HEIGHT + (5 # 100) /\
  in_house (position teleported) = false /\
  tree_placement_ok far_tree = true /\
  existsb (tree_hit 0 (-38)) [far_tree] = true /\
  position (updatePlayerMovement [far_tree] false true (Some (0, -26)) teleported) =
    mkVec3 (vx (position teleported)) PLAYER_HEIGHT (vz (position teleported)) /\
  Qeq_bool (vy (position teleported)) PLAYER_HEIGHT = false.
Proof. repeat split; reflexivity. Qed.

(** Claim C6. From a position strictly inside the world bounds and outside
    the collision radius of every tree, one locomotion step (whatever the
    gating flags and the movement intent) ends inside the world bounds and
    outside the collision radius of every tree. *)
Theorem step_keeps_bounds_and_clearance (trees : list tree) (isOpen locked : bool)
    (intent : option (Q * Q)) (a : avatar) :
  forallb tree_placement_ok trees = true ->
  -50 < vx (position a) < 50 -> -50 < vz (position a) < 50 ->
  existsb (tree_hit (vx (position a)) (vz (position a))) trees = false ->
  let p := position (updatePlayerMovement trees isOpen locked intent a) in
  (-50 <= vx p <= 50 /\ -50 <= vz p <= 50 /\
   existsb (tree_hit (vx p) (vz p)) trees = false).
Proof.
  intros Hplaced Hx Hz Hclear. cbv zeta.
  unfold updatePlayerMovement.
  destruct (isOpen || negb locked).
  { split; [lra | split; [lra | exact Hclear]]. }
  unfold update_proximity. cbn [position].
  destruct intent as [[dx dz] |].
  2: { split; [lra | split; [lra | exact Hclear]]. }
  destruct (move_step_cases trees dx dz a) as [[Ex Ez] | [[Bx Bz] | Hc]].
  - rewrite Ex, Ez. split; [lra | split; [lra | exact Hclear]].
  - split; [lra | split; [lra |]].
    set (q := position (move_step trees dx dz a)) in *.
    destruct (existsb (tree_hit (vx q) (vz q)) trees) eqn:E; [exfalso | reflexivity].
    destruct (proj1 (existsb_exists _ _) E) as [t [Hin Ht]].
    pose proof (proj1 (forallb_forall _ _) Hplaced t Hin) as Hpt.
    destruct (tree_hit_far_from_house t _ _ Hpt Ht) as [_ [_ Hfar]].
    lra.
  - exact Hc.
Qed.

Lemma step_keeps_bounds_and_clearance_witness :
  existsb (tree_hit 0 19) [far_tree; mkTree 20 (-20)] = false /\
  existsb (tree_hit
     (vx (position (updatePlayerMovement [far_tree; mkTree 20 (-20)] false true
                      (Some (0, -1)) spawn_avatar)))
     (vz (position (updatePlayerMovement [far_tree; mkTree 20 (-20)] false true
                      (Some (0, -1)) spawn_avatar))))
    [far_tree; mkTree 20 (-20)] = false.
Proof.
  split; [reflexivity |].
  apply (step_keeps_bounds_and_clearance [far_tree; mkTree 20 (-20)] false true
           (Some (0, -1)) spawn_avatar); [reflexivity | simpl; lra | simpl; lra | reflexivity].
Defined.

Close Scope Q_scope.

(* ================================================================== *)
(** * Further properties of the code *)

(* ------------------------------------------------------------------ *)
(** ** Submissions *)

Lemma sendQuery_blank (q : string) (o : query_outcome) (s : session) :
  trim_is_empty q = true -> sendQuery q o s = (s, []).
Proof. intros H. unfold sendQuery. rewrite H. reflexivity. Qed.

Lemma sendQuery_history_eq (q : string) (o : query_outcome) (s : session) :
  trim_is_empty q = false ->
  messageHistory (fst (sendQuery q o s)) =
  match o with
  | HttpOk r => (push_user q (messageHistory s) ++ [assistant_turn r])%list
  | _ => push_user q (messageHistory s)
  end.
Proof. intros Hq. unfold sendQuery. rewrite Hq. destruct o; reflexivity. Qed.

Lemma sendQuery_effects_eq (q : string) (o : query_outcome) (s : session) :
  trim_is_empty q = false ->
  snd (sendQuery q o s) = [ReqQuery q (slice_but_last (push_user q (messageHistory s)))].
Proof. intros Hq. unfold sendQuery. rewrite Hq. destruct o; reflexivity. Qed.

Lemma push_user_length (q : string) (h : list turn) :
  length (push_user q h) = Nat.min (length h + 1) 10.
Proof.
  unfold push_user, slice_last. rewrite length_app. simpl.
  destruct (Nat.ltb 10 (length h + 1)) eqn:E.
  - apply Nat.ltb_lt in E. rewrite length_skipn, length_app. simpl. lia.
  - apply Nat.ltb_ge in E. rewrite length_app. simpl. lia.
Qed.

(** X1. The persisted history after a non-blank submission: the user turn
    is pushed and the history cut to its last 10 turns; only a successful
    response (HTTP ok with a parsed body) then appends the assistant turn,
    after the cut. The input field is emptied whatever the outcome. *)
Theorem sendQuery_history_update (q : string) (o : query_outcome) (s : session) :
  trim_is_empty q = false ->
  messageHistory (fst (sendQuery q o s)) =
  match o with
  | HttpOk r => (push_user q (messageHistory s) ++ [assistant_turn r])%list
  | _ => push_user q (messageHistory s)
  end /\
  terminalInput (fst (sendQuery q o s)) = "".
Proof.
  intros Hq. split; [apply sendQuery_history_eq; exact Hq |].
  unfold sendQuery. rewrite Hq. destruct o; reflexivity.
Qed.

Lemma sendQuery_history_update_witness :
  messageHistory (fst (sendQuery "hello" (HttpOk "hi") sample_session)) =
  [user_turn "hello"; assistant_turn "hi"].
Proof.
  apply (sendQuery_history_update "hello" (HttpOk "hi") sample_session). reflexivity.
Defined.

(** X2. When the response of a non-blank submission is handled right after
    the submission (no other line logged in between), the log gains the
    user entry and then: on a network error the "Processing..." placeholder
    stays, followed by the error; on any response from the server the
    placeholder is removed and replaced by one error entry or by the AI
    answer. This holds whatever other requests are in flight. *)
Theorem sendQuery_log_update (q : string) (o : query_outcome) (s : session)
    (pending : nat) :
  trim_is_empty q = false ->
  terminalMessages (fst (fst (run_client [Submit q; Respond o] s pending))) =
  (terminalMessages s ++ mkEntry "You" q ::
     match o with
     | NetworkError msg => [mkEntry "AI" "Processing..."; mkEntry "Error" msg]
     | HttpError status b => [mkEntry "Error" (http_error_message status b)]
     | HttpOkBadJson msg => [mkEntry "Error" msg]
     | HttpOk r => [mkEntry "AI" r]
     end)%list.
Proof.
  intros Hq. cbn [run_client]. rewrite Hq. unfold sendQuery_begin. rewrite Hq.
  cbn [run_client fst].
  destruct o as [msg | status b | msg | r]; unfold sendQuery_end;
    cbn [fst terminalMessages set_messages addMessageToLog set_history set_input].
  1: rewrite <- !app_assoc; reflexivity.
  all: rewrite remove_thinking_placeholder; cbn [terminalMessages];
    rewrite <- app_assoc; reflexivity.
Qed.

Lemma sendQuery_log_update_witness :
  terminalMessages (fst (fst (run_client [Submit "hello"; Respond (HttpOk "hi")]
                                sample_session 0))) =
  [mkEntry "You" "hello"; mkEntry "AI" "hi"].
Proof.
  apply (sendQuery_log_update "hello" (HttpOk "hi") sample_session 0). reflexivity.
Defined.

Lemma sendQuery_begin_history (q : string) (s : session) :
  trim_is_empty q = false ->
  messageHistory (fst (sendQuery_begin q s)) = push_user q (messageHistory s).
Proof. intros Hq. unfold sendQuery_begin. rewrite Hq. reflexivity. Qed.

Lemma sendQuery_end_history (o : query_outcome) (s : session) :
  (length (messageHistory (sendQuery_end o s)) <= length (messageHistory s) + 1)%nat.
Proof.
  destruct o; unfold sendQuery_end; cbn [messageHistory addMessageToLog set_messages
    set_history]; try rewrite length_app; simpl; lia.
Qed.

Lemma peak_pending_ge (evs : list client_event) (p : nat) :
  (p <= peak_pending evs p)%nat.
Proof.
  revert p. induction evs as [| [q | o] rest IH]; intros p; simpl; [lia | |].
  - destruct (trim_is_empty q); [apply IH | lia].
  - destruct p as [| p]; [apply IH | lia].
Qed.

Lemma history_bounded_gen (evs : list client_event) (s : session) (p m : nat) :
  (length (messageHistory s) + p <= 10 + m)%nat ->
  (length (messageHistory (fst (fst (run_client evs s p)))) <=
   10 + Nat.max m (peak_pending evs p))%nat.
Proof.
  revert s p m. induction evs as [| [q | o] rest IH]; intros s p m Hs; simpl.
  - lia.
  - destruct (trim_is_empty q) eqn:Hq; [apply IH; exact Hs |].
    destruct (sendQuery_begin q s) as [s1 e1] eqn:E1.
    destruct (run_client rest s1 (S p)) as [[s2 p2] e2] eqn:E2. cbn [fst].
    assert (H1 : (length (messageHistory s1) <= 10)%nat).
    { replace s1 with (fst (sendQuery_begin q s)) by (rewrite E1; reflexivity).
      rewrite sendQuery_begin_history by exact Hq. rewrite push_user_length. lia. }
    pose proof (IH s1 (S p) (Nat.max m (S p))) as IH1.
    rewrite E2 in IH1. cbn [fst] in IH1.
    pose proof (peak_pending_ge rest (S p)).
    assert (length (messageHistory s1) + S p <= 10 + Nat.max m (S p))%nat by lia.
    specialize (IH1 ltac:(assumption)). lia.
  - destruct p as [| p].
    + apply IH. exact Hs.
    + pose proof (sendQuery_end_history o s).
      pose proof (IH (sendQuery_end o s) p m ltac:(lia)). lia.
Qed.

(** X3. From a history of at most 10 turns with no request in flight, any
    events (submissions, blank or not, and responses with any outcomes, in
    any interleaving) keep the persisted history within 10 turns plus the
    largest number of requests that were in flight at once. When every
    submission is answered before the next one, this is 11 turns; two
    overlapping submissions can reach 12. *)
Theorem history_bounded_by_peak_pending (evs : list client_event) (s : session) :
  (length (messageHistory s) <= 10)%nat ->
  (length (messageHistory (fst (fst (run_client evs s 0)))) <=
   10 + peak_pending evs 0)%nat.
Proof.
  intros Hs. pose proof (history_bounded_gen evs s 0 0 ltac:(lia)).
  pose proof (peak_pending_ge evs 0). lia.
Qed.

Lemma history_bounded_by_peak_pending_witness :
  peak_pending [Submit "a"; Submit "b"; Respond (HttpOk "x"); Respond (HttpOk "y")] 0 = 2%nat /\
  length (messageHistory (fst (fst (run_client
    [Submit "a"; Submit "b"; Respond (HttpOk "x"); Respond (HttpOk "y")]
    ten_turn_session 0)))) = 12%nat /\
  (length (messageHistory (fst (fst (run_client
    [Submit "a"; Submit "b"; Respond (HttpOk "x"); Respond (HttpOk "y")]
    ten_turn_session 0)))) <=
   10 + peak_pending [Submit "a"; Submit "b"; Respond (HttpOk "x"); Respond (HttpOk "y")] 0)%nat.
Proof.
  split; [reflexivity | split; [reflexivity |]].
  apply history_bounded_by_peak_pending. simpl. lia.
Defined.

(** X4. Every query request of any sequence of submissions carries a
    history of at most 9 turns, whatever the persisted history held. *)
Theorem request_history_at_most_nine (qs : list (string * query_outcome)) (s : session) :
  Forall (fun e => match e with
                   | ReqQuery _ h => (length h <= 9)%nat
                   | _ => True
                   end) (snd (run_queries qs s)).
Proof.
  revert s. induction qs as [| [q o] rest IH]; intros s; [constructor |].
  simpl. destruct (sendQuery q o s) as [s1 e1] eqn:E1.
  destruct (run_queries rest s1) as [s2 e2] eqn:E2. simpl.
  apply Forall_app. split.
  - destruct (trim_is_empty q) eqn:Hq.
    + rewrite sendQuery_blank in E1 by exact Hq. injection E1 as _ <-. constructor.
    + replace e1 with (snd (sendQuery q o s)) by (rewrite E1; reflexivity).
      rewrite sendQuery_effects_eq by exact Hq. rewrite push_user_but_last.
      constructor; [| constructor].
      destruct (Nat.ltb (length (messageHistory s)) 10) eqn:El.
      * apply Nat.ltb_lt in El. lia.
      * unfold slice_last. rewrite length_skipn. lia.
  - replace e2 with (snd (run_queries rest s1)) by (rewrite E2; reflexivity). apply IH.
Qed.

(** X5. Pushing a user turn keeps the most recent turns: the new history is
    a suffix of the old one followed by the user turn (the oldest turns are
    the ones dropped), and it has [min (n + 1) 10] turns. *)
Theorem push_user_keeps_recent (q : string) (h : list turn) :
  (exists dropped, (h ++ [user_turn q])%list = (dropped ++ push_user q h)%list) /\
  length (push_user q h) = Nat.min (length h + 1) 10.
Proof.
  split; [| apply push_user_length].
  unfold push_user, slice_last.
  destruct (Nat.ltb 10 (length (h ++ [user_turn q]))).
  - exists (firstn (length (h ++ [user_turn q]) - 10) (h ++ [user_turn q])).
    symmetry. apply firstn_skipn.
  - exists []. reflexivity.
Qed.

(** X20. Overlapping submissions: when [q2] is submitted while the request
    of [q1] is still in flight and a response from the server then arrives
    (to either request), its continuation removes the last log line, which
    is the placeholder of [q2]; the "Processing..." line of [q1] stays in
    the log, and one request remains in flight. *)
Theorem overlap_removes_later_placeholder (q1 q2 : string) (o : query_outcome)
    (s : session) (pending : nat) :
  trim_is_empty q1 = false -> trim_is_empty q2 = false -> server_responded o = true ->
  terminalMessages (fst (fst (run_client [Submit q1; Submit q2; Respond o] s pending))) =
  (terminalMessages s ++
     [mkEntry "You" q1; mkEntry "AI" "Processing..."; mkEntry "You" q2; outcome_entry o])%list /\
  snd (fst (run_client [Submit q1; Submit q2; Respond o] s pending)) = S pending.
Proof.
  intros Hq1 Hq2 Ho. cbn [run_client]. unfold sendQuery_begin.
  rewrite Hq1, Hq2. cbn [run_client fst snd].
  destruct o as [msg | status b | msg | r]; cbn [server_responded] in Ho; try discriminate.
  all: split; [| reflexivity].
  all: unfold sendQuery_end;
    cbn [fst terminalMessages set_messages addMessageToLog set_history set_input].
  all: rewrite remove_thinking_placeholder; cbn [terminalMessages outcome_entry].
  all: rewrite <- !app_assoc; reflexivity.
Qed.

Lemma overlap_removes_later_placeholder_witness :
  terminalMessages (fst (fst (run_client [Submit "a"; Submit "b"; Respond (HttpOk "x")]
                                sample_session 0))) =
  [mkEntry "You" "a"; mkEntry "AI" "Processing..."; mkEntry "You" "b"; mkEntry "AI" "x"].
Proof.
  apply (overlap_removes_later_placeholder "a" "b" (HttpOk "x") sample_session 0);
    reflexivity.
Defined.

(* ------------------------------------------------------------------ *)
(** ** Image addresses and the image poller *)

Lemma resolve_image_url_shape (u : string) :
  resolve_image_url u = u \/ exists rest, resolve_image_url u = IMAGE_SERVER_URL ++ rest.
Proof.
  unfold resolve_image_url.
  destruct (negb (String.eqb u "") && negb (startsWith u "http"))%bool; [right | left; reflexivity].
  destruct (startsWith u "/"); [exists u | exists ("/" ++ u)]; reflexivity.
Qed.

(** X6. Resolving an image address is idempotent, and its result is either
    the empty string (from an empty identifier) or an address that starts
    with "http". *)
Theorem resolve_image_url_idempotent (u : string) :
  resolve_image_url (resolve_image_url u) = resolve_image_url u /\
  (startsWith (resolve_image_url u) "http" = true \/ resolve_image_url u = "").
Proof.
  split.
  - destruct (resolve_image_url_shape u) as [H | [rest H]]; rewrite H; [rewrite H |]; reflexivity.
  - unfold resolve_image_url.
    destruct (String.eqb u "") eqn:E0.
    + apply String.eqb_eq in E0. subst u. right. reflexivity.
    + destruct (startsWith u "http") eqn:E1; cbn [negb andb].
      * left. exact E1.
      * left. destruct (startsWith u "/"); reflexivity.
Qed.

Lemma loadImageToDisplay_no_legacy (u : string) (lo : load_outcome) (g : game) :
  ~ In ReqLegacyImage (snd (loadImageToDisplay u lo g)).
Proof.
  unfold loadImageToDisplay. destruct (currentImageTexture g); simpl; intuition discriminate.
Qed.

(** X7. When a poll resolves no image, nothing is disposed or loaded and the
    display is untouched: a primary response without an identifier only logs
    "No images available in the gallery." (when the terminal is open); a
    failed primary request issues the legacy request, then logs "Unable to
    connect to the image gallery." if that fails too, and nothing at all if
    the legacy response has no identifier. *)
Theorem poll_without_image (r : latest_response) (leg : legacy_response)
    (lo : load_outcome) (g : game) :
  resolved_image r leg = None ->
  onLatestImage r leg lo g =
  match r with
  | LatestOk _ _ => (log_if_open "System" "No images available in the gallery." g, [])
  | LatestFailed =>
      match leg with
      | LegacyOk _ => (g, [ReqLegacyImage])
      | LegacyFailed =>
          (log_if_open "System" "Unable to connect to the image gallery." g, [ReqLegacyImage])
      end
  end.
Proof.
  intros H. unfold onLatestImage.
  destruct r as [iu li |]; simpl in H.
  - destruct (truthy iu); [discriminate |]. rewrite H. reflexivity.
  - destruct leg as [li |]; [rewrite H |]; reflexivity.
Qed.

Lemma poll_without_image_witness :
  onLatestImage (LatestOk (Some "") None) LegacyFailed LoadError showing_a_game =
  (log_if_open "System" "No images available in the gallery." showing_a_game, []).
Proof.
  apply (poll_without_image (LatestOk (Some "") None) LegacyFailed LoadError showing_a_game).
  reflexivity.
Defined.

(** X8. The legacy endpoint is requested exactly when the primary request
    failed (rejected, non-2xx or unparsable), whatever either response holds. *)
Theorem legacy_request_iff_primary_failed (r : latest_response) (leg : legacy_response)
    (lo : load_outcome) (g : game) :
  In ReqLegacyImage (snd (onLatestImage r leg lo g)) <-> r = LatestFailed.
Proof.
  destruct r as [iu li |]; unfold onLatestImage.
  - split; [| discriminate]. intros Hin. exfalso.
    destruct (truthy iu) as [u |]; [exact (loadImageToDisplay_no_legacy u lo g Hin) |].
    destruct (truthy li) as [u |]; [exact (loadImageToDisplay_no_legacy u lo g Hin) |].
    exact Hin.
  - split; [reflexivity | intros _].
    destruct (match leg with
              | LegacyOk li => match truthy li with
                               | Some u => loadImageToDisplay u lo g
                               | None => (g, [])
                               end
              | LegacyFailed =>
                  (log_if_open "System" "Unable to connect to the image gallery." g, [])
              end).
    left. reflexivity.
Qed.





(** X10. A failed load leaves the texture it disposed recorded as current,
    so the next load disposes that same texture a second time. *)
Theorem failed_load_disposes_twice (u1 u2 : string) (lo : load_outcome) (g : game)
    (t : texture) :
  currentImageTexture g = Some t ->
  snd (loadImageToDisplay u1 LoadError g) =
    [DisposeTexture t; LoadTexture (resolve_image_url u1)] /\
  snd (loadImageToDisplay u2 lo (fst (loadImageToDisplay u1 LoadError g))) =
    [DisposeTexture t; LoadTexture (resolve_image_url u2)].
Proof. intros H. unfold loadImageToDisplay. simpl. rewrite H. split; reflexivity. Qed.

Lemma failed_load_disposes_twice_witness :
  snd (loadImageToDisplay "b.png" LoadError showing_a_game) =
    [DisposeTexture shown_a; LoadTexture "http://localhost:3002/b.png"] /\
  snd (loadImageToDisplay "c.png" (Loaded 3)
         (fst (loadImageToDisplay "b.png" LoadError showing_a_game))) =
    [DisposeTexture shown_a; LoadTexture "http://localhost:3002/c.png"].
Proof.
  apply (failed_load_disposes_twice "b.png" "c.png" (Loaded 3) showing_a_game shown_a).
  reflexivity.
Defined.

Lemma run_checks_quiet (ts : list Z) (g : game) :
  Forall (fun t => (t - lastCheckedImageTime g < 10000)%Z) ts ->
  run_checks ts g = (g, []).
Proof.
  induction ts as [| t rest IH]; intros Hts; [reflexivity |].
  inversion Hts as [| ? ? Ht Hrest]; subst.
  simpl. unfold checkForImages at 1.
  replace ((t - lastCheckedImageTime g <? 10000)%Z) with true
    by (symmetry; apply Z.ltb_lt; exact Ht).
  rewrite (IH Hrest). reflexivity.
Qed.

(** X11. Any number of image checks made at times within one window shorter
    than 10000 ms (in any order) issue at most one image request. *)
Theorem checks_in_window_at_most_one (ts : list Z) (t0 : Z) (g : game) :
  (forall t, In t ts -> (t0 <= t < t0 + 10000)%Z) ->
  (length (snd (run_checks ts g)) <= 1)%nat.
Proof.
  revert g. induction ts as [| t rest IH]; intros g Hts; simpl; [lia |].
  unfold checkForImages at 1.
  destruct ((t - lastCheckedImageTime g <? 10000)%Z).
  - specialize (IH g (fun t' H => Hts t' (or_intror H))).
    destruct (run_checks rest g) as [g2 e2]. simpl in *. exact IH.
  - rewrite run_checks_quiet.
    + simpl. lia.
    + apply Forall_forall. intros t' Hin. simpl.
      pose proof (Hts t (or_introl eq_refl)). pose proof (Hts t' (or_intror Hin)). lia.
Qed.

Lemma checks_in_window_at_most_one_witness :
  (length (snd (run_checks [20000; 25000; 21000; 29999]%Z start_game)) <= 1)%nat.
Proof.
  apply (checks_in_window_at_most_one _ 20000%Z). simpl.
  intros t [<- | [<- | [<- | [<- | []]]]]; lia.
Defined.

(* ------------------------------------------------------------------ *)
(** ** Status line and instructions *)

(** X12. Enter near the TV (no computer in range) opens the terminal as a
    'tv' session, sets the status line to "TV REMOTE CONTROL" and issues
    the status request; whatever that request's outcome, its completion
    rewrites the status line to "MCP TERMINAL". *)
Theorem tv_label_overwritten_by_status (o : status_outcome) (focused : bool)
    (qo : query_outcome) (g : game) :
  isTerminalOpen (ses g) = false ->
  playerNearComputer (av g) = false -> playerNearTV (av g) = true ->
  isTerminalOpen (ses (fst (handleEnter focused qo g))) = true /\
  interactionType (ses (fst (handleEnter focused qo g))) = "tv" /\
  terminalStatus (ses (fst (handleEnter focused qo g))) = "TV REMOTE CONTROL" /\
  snd (handleEnter focused qo g) = [ReqStatus] /\
  terminalStatus (onStatusResponse o (ses (fst (handleEnter focused qo g)))) = "MCP TERMINAL".
Proof.
  intros Hc Hnc Htv.
  destruct g as [[op ty hist msgs inp st] a ml last tex mat]; simpl in Hc, Hnc, Htv; subst op.
  unfold handleEnter. simpl. rewrite Hnc, Htv. simpl.
  destruct o; repeat split; reflexivity.
Qed.

Lemma tv_label_overwritten_by_status_witness :
  terminalStatus (onStatusResponse StatusNetworkError
    (ses (fst (handleEnter false (HttpOk "")
       (with_av (mkAvatar (mkVec3 0 PLAYER_HEIGHT 6) true false false) start_game))))) =
  "MCP TERMINAL".
Proof.
  apply (tv_label_overwritten_by_status StatusNetworkError false (HttpOk "")
           (with_av (mkAvatar (mkVec3 0 PLAYER_HEIGHT 6) true false false) start_game));
    reflexivity.
Defined.

(** X13. With the terminal closed and the mouse locked, the instruction
    line announces what Enter does: the computer prompt goes with opening a
    'computer' session, the TV prompt with opening a 'tv' session, the
    door prompt with the door teleport, and the default line with Enter
    doing nothing. *)
Theorem instructions_match_enter (focused : bool) (o : query_outcome) (g : game) :
  isTerminalOpen (ses g) = false ->
  (updateInstructions false true (av g) = "Press Enter to access MCP Terminal" ->
     isTerminalOpen (ses (fst (handleEnter focused o g))) = true /\
     interactionType (ses (fst (handleEnter focused o g))) = "computer") /\
  (updateInstructions false true (av g) = "Press Enter to use TV Remote" ->
     isTerminalOpen (ses (fst (handleEnter focused o g))) = true /\
     interactionType (ses (fst (handleEnter focused o g))) = "tv") /\
  (updateInstructions false true (av g) = "Press Enter to enter/exit the house" ->
     handleEnter focused o g = (with_av (door_teleport (av g)) g, [])) /\
  (updateInstructions false true (av g) = "WASD to move | Explore the environment" ->
     handleEnter focused o g = (g, [])).
Proof.
  intros Hc.
  destruct g as [[op ty hist msgs inp st] [p tv cp dr] ml last tex mat];
    simpl in Hc; subst op.
  unfold updateInstructions, handleEnter. cbn [ses av isTerminalOpen negb andb
    playerNearComputer playerNearTV playerNearDoor].
  destruct cp; [| destruct tv; [| destruct dr]].
  all: split; [intros Hs | split; [intros Hs | split; intros Hs]].
  all: try discriminate Hs.
  all: try (split; reflexivity); reflexivity.
Qed.

Lemma instructions_match_enter_witness :
  handleEnter false (HttpOk "") start_game = (start_game, []).
Proof.
  apply (instructions_match_enter false (HttpOk "") start_game); reflexivity.
Defined.

(* ------------------------------------------------------------------ *)
(** ** Mouse look, tree placement and locomotion *)

Open Scope Q_scope.

(** X14. While the pointer is locked, a mouse move keeps the vertical look
    angle within [-maxVerticalLook, maxVerticalLook] whatever the mouse
    motion and the previous angle, and marks the mouse as locked. *)
Theorem mouse_pitch_clamped (m mx my : Q) (l : look) (locked : bool) :
  0 <= m ->
  - m <= pitch (fst (handleMouseMove true m mx my l locked)) <= m /\
  snd (handleMouseMove true m mx my l locked) = true.
Proof.
  intros Hm. unfold handleMouseMove, js_max, js_min. cbn [fst snd pitch].
  split; [| reflexivity].
  destruct (Qle_bool m (pitch l + my * PLAYER_TURN_SPEED)) eqn:E1;
    repeat split_if; qbool; lra.
Qed.

Lemma mouse_pitch_clamped_witness :
  - (147 # 100) <= pitch (fst (handleMouseMove true (147 # 100) 0 1000 (mkLook 0 0) false))
    <= 147 # 100.
Proof.
  apply (mouse_pitch_clamped (147 # 100) 0 1000 (mkLook 0 0) false). lra.
Defined.

Lemma Qltb_intro (a b : Q) : a < b -> Qltb a b = true.
Proof.
  intros H. unfold Qltb. destruct (Qle_bool b a) eqn:E; [| reflexivity].
  apply Qle_bool_iff in E. lra.
Qed.

Lemma tree_candidate_ok (r1 r2 : Q) :
  0 <= r1 < 1 -> 0 <= r2 < 1 ->
  isValidPosition (tree_candidate r1 r2) = true ->
  tree_placement_ok (tree_candidate r1 r2) = true.
Proof.
  intros H1 H2 Hv. unfold isValidPosition, tree_placement_ok in *. cbv zeta in *.
  unfold tree_candidate in *. cbn [tree_x tree_z] in *.
  rewrite (proj2 (Qle_bool_iff _ _)) by qlin.
  rewrite (Qltb_intro _ 40) by qlin.
  rewrite (proj2 (Qle_bool_iff _ _)) by qlin.
  rewrite (Qltb_intro _ 40) by qlin.
  exact Hv.
Qed.

Lemma place_tree_ok (rs : list (Q * Q)) (t : tree) (rest : list (Q * Q)) :
  Forall (fun r => 0 <= fst r < 1 /\ 0 <= snd r < 1) rs ->
  place_tree rs = Some (t, rest) ->
  tree_placement_ok t = true /\ Forall (fun r => 0 <= fst r < 1 /\ 0 <= snd r < 1) rest.
Proof.
  induction rs as [| [r1 r2] rs' IH]; intros Hrs Hp; [discriminate |].
  inversion Hrs as [| ? ? [Hr1 Hr2] Hrs']; subst. simpl in Hp.
  destruct (isValidPosition (tree_candidate r1 r2)) eqn:Ev.
  - injection Hp as <- <-. split; [apply tree_candidate_ok; assumption | exact Hrs'].
  - apply IH; assumption.
Qed.

(** X15. Every tree [createTrees] places from random draws in [0, 1)
    satisfies the placement rule used by the collision properties: inside
    [-40, 40) on both axes, away from the path and away from the house. *)
Theorem createTrees_placement_ok (n : nat) (rs : list (Q * Q)) :
  Forall (fun r => 0 <= fst r < 1 /\ 0 <= snd r < 1) rs ->
  forallb tree_placement_ok (createTrees_from n rs) = true.
Proof.
  revert rs. induction n as [| k IH]; intros rs Hrs; [reflexivity |].
  simpl. destruct (place_tree rs) as [[t rest] |] eqn:Ep; [| reflexivity].
  destruct (place_tree_ok rs t rest Hrs Ep) as [Ht Hrest].
  simpl. rewrite Ht. apply IH. exact Hrest.
Qed.

Lemma createTrees_placement_ok_witness :
  forallb tree_placement_ok (createTrees_from 2 [(1 # 2, 1 # 2); (1 # 10, 1 # 10); (9 # 10, 3 # 10)])
  = true.
Proof.
  apply createTrees_placement_ok.
  repeat constructor; cbn [fst snd]; lra.
Defined.

(** X16. After an ungated movement update, the avatar is never in range of
    both the TV and the computer: the two fixtures are about 7.65 apart,
    more than twice the interaction distance of 3.5. *)
Theorem tv_and_computer_exclusive (trees : list tree) (intent : option (Q * Q))
    (a : avatar) :
  playerNearTV (updatePlayerMovement trees false true intent a) &&
  playerNearComputer (updatePlayerMovement trees false true intent a) = false.
Proof.
  unfold updatePlayerMovement. cbn [orb negb]. unfold update_proximity.
  cbn [playerNearTV playerNearComputer].
  set (p := position _).
  destruct (within_interaction p tv_position) eqn:E1; [| reflexivity].
  destruct (within_interaction p computer_position) eqn:E2; [exfalso | reflexivity].
  unfold within_interaction, tv_position, computer_position, INTERACTION_DISTANCE in *.
  cbn [vx vy vz] in *.
  apply Qltb_true in E1. apply Qltb_true in E2.
  pose proof (sq_nonneg (2 * vx p + 7)).
  pose proof (sq_nonneg (2 * vy p - (33 # 10))).
  pose proof (sq_nonneg (2 * vz p - 11)).
  lra.
Qed.

(** X17. A step that starts outside the house puts the eye level at 1.75
    exactly when it ends inside the house footprint, and at 1.7 otherwise. *)
Theorem height_matches_zone (trees : list tree) (dx dz : Q) (a : avatar) :
  in_house (position a) = false ->
  vy (position (move_step trees dx dz a)) =
  if in_house (position (move_step trees dx dz a))
  then PLAYER_HEIGHT + (5 # 100) else PLAYER_HEIGHT.
Proof.
  intros Hprev. unfold in_house in Hprev. qbool.
  all: unfold move_step, in_house; cbv zeta.
  all: pose proof (clamp_bounds (vx (position a) + dx)) as Hx.
  all: pose proof (clamp_bounds (vz (position a) + dz)) as Hz.
  all: generalize dependent
         (js_max (- (WORLD_SIZE / 2)) (js_min (WORLD_SIZE / 2) (vx (position a) + dx))).
  all: intros x1 Hx.
  all: generalize dependent
         (js_max (- (WORLD_SIZE / 2)) (js_min (WORLD_SIZE / 2) (vz (position a) + dz))).
  all: intros z1 Hz.
  all: repeat (cbn [andb orb]; split_if).
  all: cbn [position vx vy vz] in *.
  all: try (match goal with
            | |- context [tree_loop ?ts ?c ?p] =>
                let Hh := fresh "Hh" in let Heq := fresh "Heq" in
                destruct (tree_loop_cases ts c p) as [[Hh Heq] | [Hh Heq]];
                rewrite Heq; cbn [vx vy vz] in *
            end).
  all: repeat (cbn [andb orb]; split_if).
  all: cbn [vx vy vz] in *.
  all: try (match goal with
            | H : context [tree_loop ?ts ?c ?p] |- _ =>
                let Hh := fresh "Hh" in let Heq := fresh "Heq" in
                destruct (tree_loop_cases ts c p) as [[Hh Heq] | [Hh Heq]];
                rewrite Heq in *; cbn [vx vy vz] in *
            end).
  all: qbool.
  all: try reflexivity.
  all: exfalso.
  all: try (destruct (js_sign_cases x1) as [Hs | [Hs | Hs]]; rewrite Hs in *).
  all: qlin.
Qed.

Lemma height_matches_zone_witness :
  vy (position (move_step [] 0 (-20) spawn_avatar)) = PLAYER_HEIGHT + (5 # 100).
Proof.
  rewrite (height_matches_zone [] 0 (-20) spawn_avatar) by reflexivity. reflexivity.
Defined.

(** X18. Walls are only checked at the end point of a step: a step whose
    displaced position lies in the inner part of the house
    ([-8.7, 8.7] on both axes) lands exactly there, at the indoor eye level,
    whatever the pre-move position (outside the house included). *)
Theorem interior_move_ignores_walls (trees : list tree) (dx dz : Q) (a : avatar) :
  - (87 # 10) <= vx (position a) + dx <= 87 # 10 ->
  - (87 # 10) <= vz (position a) + dz <= 87 # 10 ->
  position (move_step trees dx dz a) =
  mkVec3 (vx (position a) + dx) (PLAYER_HEIGHT + (5 # 100)) (vz (position a) + dz).
Proof.
  intros Hx Hz. unfold move_step. cbv zeta.
  pose proof (proj2 (Qabs_Qle_condition (vx (position a) + dx) (87 # 10)) Hx).
  rewrite (clamp_id (vx (position a) + dx)) by qlin.
  rewrite (clamp_id (vz (position a) + dz)) by qlin.
  repeat (cbn [andb orb]; split_if).
  all: cbn [position vx vy vz].
  all: try (match goal with
            | H : context [if ?c then _ else _] |- _ => destruct c eqn:?
            end).
  all: qbool.
  all: first [reflexivity | exfalso; qlin].
Qed.

Lemma interior_move_ignores_walls_witness :
  position (move_step [] 0 (-20) spawn_avatar) =
  mkVec3 (vx (position spawn_avatar) + 0) (PLAYER_HEIGHT + (5 # 100))
    (vz (position spawn_avatar) + -20).
Proof.
  apply (interior_move_ignores_walls [] 0 (-20) spawn_avatar); simpl; qlin.
Defined.

(** X19. The door action moves the avatar along z only: from anywhere
    inside the house footprint (not only near the door) to z = -12,
    outside the house; from outside with x within [-9, 9] to z = -8,
    inside the house. x, y and the proximity flags are kept. *)
Theorem door_teleport_sides (a : avatar) :
  vx (position (door_teleport a)) = vx (position a) /\
  vy (position (door_teleport a)) = vy (position a) /\
  (in_house (position a) = true ->
     vz (position (door_teleport a)) == -12 /\
     in_house (position (door_teleport a)) = false) /\
  (in_house (position a) = false -> -9 <= vx (position a) <= 9 ->
     vz (position (door_teleport a)) == -8 /\
     in_house (position (door_teleport a)) = true).
Proof.
  unfold door_teleport, in_house. cbn [position vx vy vz].
  split; [reflexivity | split; [reflexivity |]].
  split; intros H; [| intros [Hx1 Hx2]]; split_if; qbool.
  all: cbn [vx vz].
  all: try (exfalso; qlin).
  all: split; [unfold Qeq; reflexivity |].
  all: repeat match goal with
              | Hq : ?l <= ?r |- context [Qle_bool ?l ?r] =>
                  rewrite (proj2 (Qle_bool_iff l r) Hq)
              end.
  all: destruct (Qle_bool (-9) (vx (position a))), (Qle_bool (vx (position a)) 9);
    reflexivity.
Qed.

Lemma door_teleport_sides_witness :
  vz (position (door_teleport (mkAvatar (mkVec3 8 (PLAYER_HEIGHT + (5 # 100)) 0) false false true)))
    == -12.
Proof.
  apply (door_teleport_sides (mkAvatar (mkVec3 8 (PLAYER_HEIGHT + (5 # 100)) 0) false false true)).
  reflexivity.
Defined.

Close Scope Q_scope.
